(** * Hubble reproduction harness: the script and the engine contract

    The repository holds one Python script, [papers/hubble_reproduction.py].
    It imports three operations from an external package, calls them on two
    published seed measurements, prints a report and returns a dictionary.

    The script is embedded as it is written: Python floats are IEEE binary64
    values (Rocq's primitive floats), dictionaries are finite maps keyed by
    strings, exceptions are an error outcome, and [print] appends to a trace
    of observable events. The imported operations are a record of functions
    the script is run against.

    The engine behind the three operations is not in the repository. Its
    contract is modelled from the specification over an abstract scalar
    signature that is instantiated at the real numbers (for the algebraic
    properties) and at binary64 (to run the script end to end). *)

From Stdlib Require Import ZArith QArith Qabs List String Floats Reals Lra Lia.
From stdpp Require Import base option strings gmap.

#[local] Set Warnings "-inexact-float".

(** ** Python values, exceptions and results *)

(** A Python number as the script writes it: [1090] is an [int], [0.01] a
    [float]. *)
Inductive pynum : Type :=
| PInt (z : Z)
| PFloat (x : float).

(** The exceptions that can reach the caller of [main]. *)
Inductive exn : Type :=
| ImportError
| KeyError (key : string)
| ZeroDivisionError
| SystemExit (code : Z)
| ValidationError
| UnknownMethodError
| DegenerateInputError
| OtherError (cls : string).

Inductive result (A : Type) : Type :=
| Ok (a : A)
| Err (e : exn).
Arguments Ok {A} a.
Arguments Err {A} e.

(** ** Console output *)

(** One piece of an f-string: literal text, [str()] of a number, or a float
    under the format [:.Nf]. *)
Inductive frag : Type :=
| Lit (s : string)
| Show (v : pynum)
| Fixed (digits : nat) (x : float).

(** The argument of one [print] call; [print()] is the empty line. *)
Definition line : Type := list frag.

(** Python's [s * n] on strings. *)
Fixpoint str_mul (s : string) (n : nat) : string :=
  match n with
  | O => EmptyString
  | S n' => String.append s (str_mul s n')
  end.

(** ** The imported interface *)

(** The keyword arguments of [create_measurement]. *)
Record CreateArgs : Type := {
  arg_name : string;
  arg_value : float;
  arg_sigma : float;
  arg_redshift : pynum;
  arg_omega_m : float;
  arg_method : string
}.

(** The object [create_measurement] returns, with the attributes the script
    reads. *)
Record Measurement : Type := {
  name : string;
  value : float;
  sigma : float;
  redshift : pynum;
  omega_m : float;
  method : string
}.

(** What [from uha_official import (...)] binds when it succeeds. The
    operations may raise; the numbers the script formats with [:.Nf] and
    computes with are floats, and the two results are dictionaries. *)
Record Engine : Type := {
  create_measurement : CreateArgs -> result Measurement;
  merge_with_epistemic_correction :
    Measurement -> Measurement -> result (gmap string float);
  calculate_concordance_stats :
    float -> float -> float -> float -> result (gmap string float)
}.

(** ** Observable events and the script monad *)

Inductive event : Type :=
| Printed (l : line)
| CalledCreate (args : CreateArgs)
| CalledMerge (a b : Measurement)
| CalledConcordance (h0 u ref_value ref_sigma : float).

Inductive outcome (A : Type) : Type :=
| Returned (a : A)
| Raised (e : exn).
Arguments Returned {A} a.
Arguments Raised {A} e.

(** A computation yields the events it produced, in order, and how it
    ended. *)
Definition M (A : Type) : Type := (list event * outcome A)%type.

#[global] Instance M_ret : MRet M := fun A a => ([], Returned a).

#[global] Instance M_bind : MBind M := fun A B f m =>
  match m with
  | (t1, Returned a) => let '(t2, o) := f a in (t1 ++ t2, o)
  | (t1, Raised e) => (t1, Raised e)
  end.

Definition raise {A : Type} (e : exn) : M A := ([], Raised e).

Definition emit (e : event) : M unit := ([e], Returned tt).

Definition print (l : line) : M unit := emit (Printed l).

Definition lift {A : Type} (r : result A) : M A :=
  match r with
  | Ok a => mret a
  | Err e => raise e
  end.

(** [d[k]] on a dictionary: [KeyError] when the key is absent. *)
Definition getitem (d : gmap string float) (k : string) : M float :=
  match d !! k with
  | Some v => mret v
  | None => raise (KeyError k)
  end.

(** Python's [/] on floats raises on a zero divisor (of either sign). *)
Definition truediv (x y : float) : M float :=
  if PrimFloat.eqb y 0%float then raise ZeroDivisionError
  else mret (PrimFloat.div x y).

(** [sys.exit(code)] raises [SystemExit]. *)
Definition sys_exit {A : Type} (code : Z) : M A := raise (SystemExit code).

(** The exit status of the interpreter for a finished script. *)
Definition exit_status {A : Type} (o : outcome A) : Z :=
  match o with
  | Returned _ => 0
  | Raised (SystemExit code) => code
  | Raised _ => 1
  end.

(** ** The script: [papers/hubble_reproduction.py] *)

Definition planck_args : CreateArgs := {|
  arg_name := "Planck 2018 CMB";
  arg_value := 67.4;
  arg_sigma := 0.5;
  arg_redshift := PInt 1090;
  arg_omega_m := 0.315;
  arg_method := "indirect"
|}.

Definition shoes_args : CreateArgs := {|
  arg_name := "SH0ES Distance Ladder";
  arg_value := 73.47;
  arg_sigma := 0.14;
  arg_redshift := PFloat 0.01;
  arg_omega_m := 0.300;
  arg_method := "direct"
|}.

(** The three lines the closing [if]/[elif]/[else] chooses between. *)
Definition concordance_line : line :=
  [Lit "🎉 Result: CONCORDANCE ACHIEVED (< 1.5σ)"].
Definition mild_line : line :=
  [Lit "⚠️  Result: MILD TENSION (1.5-3σ)"].
Definition significant_line : line :=
  [Lit "❌ Result: SIGNIFICANT TENSION (> 3σ)"].

Section Script.

Variable eng : Engine.

Definition call_create (args : CreateArgs) : M Measurement :=
  emit (CalledCreate args);; lift (create_measurement eng args).

Definition call_merge (a b : Measurement) : M (gmap string float) :=
  emit (CalledMerge a b);; lift (merge_with_epistemic_correction eng a b).

Definition call_concordance (h0 u v s : float) : M (gmap string float) :=
  emit (CalledConcordance h0 u v s);;
  lift (calculate_concordance_stats eng h0 u v s).

(** [main()], statement by statement. *)
Definition main : M (gmap string float) :=
  print [Lit (str_mul "=" 70)];;
  print [Lit "Hubble Tension Resolution - Reproduction Code"];;
  print [Lit (str_mul "=" 70)];;
  print [];;
  print [Lit "Framework: Proprietary N/U Algebra Extension"];;
  print [Lit "Patent: US 63/902,536"];;
  print [Lit "Implementation: Binary-only (proprietary)"];;
  print [];;
  print [Lit "📊 Loading measurements..."];;
  print [];;
  planck ← call_create planck_args;
  shoes ← call_create shoes_args;
  print [Lit "  "; Lit (name planck); Lit ": "; Fixed 2 (value planck);
         Lit " ± "; Fixed 2 (sigma planck); Lit " km/s/Mpc"];;
  print [Lit "    z = "; Show (redshift planck)];;
  print [Lit "    Method: "; Lit (method planck)];;
  print [];;
  print [Lit "  "; Lit (name shoes); Lit ": "; Fixed 2 (value shoes);
         Lit " ± "; Fixed 2 (sigma shoes); Lit " km/s/Mpc"];;
  print [Lit "    z = "; Show (redshift shoes)];;
  print [Lit "    Method: "; Lit (method shoes)];;
  print [];;
  print [Lit "📏 Initial Tension:"];;
  let initial_gap := PrimFloat.abs (value shoes - value planck)%float in
  print [Lit "  Gap: "; Fixed 2 initial_gap; Lit " km/s/Mpc"];;
  print [];;
  print [Lit "🔀 Merging with proprietary epistemic correction..."];;
  print [Lit "  (Using proprietary binary implementation)"];;
  print [];;
  result ← call_merge planck shoes;
  h0 ← getitem result "h0_merged";
  u ← getitem result "u_merged";
  print [Lit "  Merged Result: H₀ = "; Fixed 2 h0; Lit " ± "; Fixed 2 u;
         Lit " km/s/Mpc"];;
  dT ← getitem result "delta_T";
  print [Lit "  Epistemic Distance: Δ_T = "; Fixed 4 dT];;
  print [];;
  print [Lit "📈 Concordance Analysis:"];;
  h0' ← getitem result "h0_merged";
  u' ← getitem result "u_merged";
  stats ← call_concordance h0' u' (value planck) (sigma planck);
  off ← getitem stats "offset_km_s_Mpc";
  print [Lit "  Offset from Planck: "; Fixed 2 off; Lit " km/s/Mpc"];;
  sig ← getitem stats "significance_sigma";
  print [Lit "  Significance: "; Fixed 2 sig; Lit "σ"];;
  print [];;
  off' ← getitem stats "offset_km_s_Mpc";
  q ← truediv off' initial_gap;
  let reduction_pct := ((1 - q) * 100)%float in
  print [Lit "  Tension Reduction: "; Fixed 1 reduction_pct; Lit "%"];;
  print [];;
  print [Lit (str_mul "=" 70)];;
  print [Lit "🎯 Summary"];;
  print [Lit (str_mul "=" 70)];;
  print [];;
  print [Lit "✅ Achieved "; Fixed 1 reduction_pct; Lit "% concordance"];;
  sig1 ← getitem stats "significance_sigma";
  print [Lit "✅ Residual tension: "; Fixed 2 sig1; Lit "σ"];;
  dT1 ← getitem result "delta_T";
  print [Lit "✅ Epistemic distance: Δ_T = "; Fixed 4 dT1];;
  print [];;
  sig2 ← getitem stats "significance_sigma";
  (if (sig2 <? 1.5)%float then print concordance_line
   else
     sig3 ← getitem stats "significance_sigma";
     if (sig3 <? 3.0)%float then print mild_line
     else print significant_line);;
  print [];;
  print [Lit (str_mul "=" 70)];;
  print [];;
  print [Lit "ℹ️  Implementation Details:"];;
  print [Lit "  This framework uses proprietary algorithms protected by"];;
  print [Lit "  US Patent 63/902,536 and trade secret. Implementation details"];;
  print [Lit "  are available only in the binary distribution."];;
  print [];;
  print [Lit "  For licensing inquiries: eric.martin1@wsu.edu"];;
  print [];;
  r_h0 ← getitem result "h0_merged";
  r_u ← getitem result "u_merged";
  r_dT ← getitem result "delta_T";
  r_sig ← getitem stats "significance_sigma";
  mret (<["h0_merged" := r_h0]>
        (<["u_merged" := r_u]>
         (<["delta_T" := r_dT]>
          (<["concordance_pct" := reduction_pct]>
           (<["significance" := r_sig]> ∅))))).

End Script.

(** The lines printed when the import fails. *)
Definition install_message : list line :=
  [ [Lit (str_mul "=" 70)];
    [Lit "ERROR: UHA Official binary not installed"];
    [Lit (str_mul "=" 70)];
    [];
    [Lit "This reproduction script requires the official UHA binary wheel."];
    [];
    [Lit "Installation:"];
    [Lit "  pip install uha-official>=1.0.0"];
    [];
    [Lit "Or download from:"];
    [Lit "  https://github.com/abba-01/uha-official/releases"];
    [];
    [Lit "For licensing inquiries: eric.martin1@wsu.edu"];
    [] ].

Fixpoint print_all (ls : list line) : M unit :=
  match ls with
  | [] => mret tt
  | l :: ls' => print l;; print_all ls'
  end.

(** The module body run as a script. [import] is what the [from ... import]
    statement does: it binds the three names or raises. [ImportError] is the
    one exception the [try] catches. *)
Definition script (import : result Engine) : M unit :=
  match import with
  | Ok eng => main eng;; mret tt
  | Err ImportError => print_all install_message;; sys_exit 1
  | Err e => raise e
  end.

(** ** The engine contract *)

(** The arithmetic the engine's formulas use. The specification states them
    over real numbers; the script runs them on binary64. *)
Class Scalar (T : Type) : Type := {
  sc_zero : T;
  sc_one : T;
  sc_add : T -> T -> T;
  sc_sub : T -> T -> T;
  sc_mul : T -> T -> T;
  sc_div : T -> T -> T;
  sc_sqrt : T -> T;
  sc_abs : T -> T;
  sc_ltb : T -> T -> bool;
  sc_leb : T -> T -> bool;
  sc_eqb : T -> T -> bool
}.

#[global] Instance R_scalar : Scalar R := {|
  sc_zero := 0%R;
  sc_one := 1%R;
  sc_add := Rplus;
  sc_sub := Rminus;
  sc_mul := Rmult;
  sc_div := Rdiv;
  sc_sqrt := sqrt;
  sc_abs := Rabs;
  sc_ltb := fun x y => if Rlt_dec x y then true else false;
  sc_leb := fun x y => if Rle_dec x y then true else false;
  sc_eqb := fun x y => if Req_dec_T x y then true else false
|}.

#[global] Instance float_scalar : Scalar float := {|
  sc_zero := 0%float;
  sc_one := 1%float;
  sc_add := PrimFloat.add;
  sc_sub := PrimFloat.sub;
  sc_mul := PrimFloat.mul;
  sc_div := PrimFloat.div;
  sc_sqrt := PrimFloat.sqrt;
  sc_abs := PrimFloat.abs;
  sc_ltb := PrimFloat.ltb;
  sc_leb := PrimFloat.leb;
  sc_eqb := PrimFloat.eqb
|}.

Module Spec.

(** The two recognised method tags. *)
Inductive method_tag : Type :=
| direct
| indirect.

Definition parse_method (s : string) : option method_tag :=
  if String.eqb s "direct" then Some direct
  else if String.eqb s "indirect" then Some indirect
  else None.

Definition method_name (m : method_tag) : string :=
  match m with
  | direct => "direct"
  | indirect => "indirect"
  end.

Section Engine.

Context {T : Type} `{Scalar T}.

(** The configuration constants of the merger: the bias-correction
    fraction and the inflation threshold. *)
Variables (f threshold : T).

#[local] Infix "+" := sc_add.
#[local] Infix "-" := sc_sub.
#[local] Infix "*" := sc_mul.
#[local] Infix "/" := sc_div.

Record MeasurementModel : Type := {
  mm_name : string;
  mm_value : T;
  mm_sigma : T;
  mm_redshift : T;
  mm_omega_m : T;
  mm_method : method_tag
}.

Record MergedEstimate : Type := {
  h0_merged : T;
  u_merged : T;
  delta_T : T
}.

Record ConcordanceResult : Type := {
  offset_km_s_Mpc : T;
  significance_sigma : T
}.

(** Modelled from the spec: the constructor of MeasurementModel (section
    4.1), which is not in the repository. It validates [sigma > 0] and
    [redshift >= 0], then the method tag, in the order the contract lists
    them, and stores the fields unchanged. *)
Definition construct (name : string) (value sigma redshift omega_m : T)
    (method : string) : result MeasurementModel :=
  if negb (sc_ltb sc_zero sigma) then Err ValidationError
  else if negb (sc_leb sc_zero redshift) then Err ValidationError
  else
    match parse_method method with
    | None => Err UnknownMethodError
    | Some m =>
        Ok {| mm_name := name; mm_value := value; mm_sigma := sigma;
              mm_redshift := redshift; mm_omega_m := omega_m;
              mm_method := m |}
    end.

(** Python-style [max(x, y)]: the second argument when it is greater. *)
Definition sc_max (x y : T) : T := if sc_ltb x y then y else x.

Definition sq (x : T) : T := x * x.

(** Modelled from the spec: EpistemicMerger.merge (section 4.2, steps 1
    to 6), which is not in the repository. The nudge of step 3 moves the
    weighted mean towards the direct measurement by the fraction [f] of
    its distance to that measurement. *)
Definition merge (a b : MeasurementModel) : result MergedEstimate :=
  if sc_eqb (mm_sigma a) sc_zero || sc_eqb (mm_sigma b) sc_zero
  then Err DegenerateInputError
  else
    let dT :=
      sc_abs (mm_value a - mm_value b)
      / sc_sqrt (sq (mm_sigma a) + sq (mm_sigma b)) in
    let w_a := sc_one / sq (mm_sigma a) in
    let w_b := sc_one / sq (mm_sigma b) in
    let h0_raw := (w_a * mm_value a + w_b * mm_value b) / (w_a + w_b) in
    let h0_adj :=
      match mm_method a, mm_method b with
      | direct, indirect => h0_raw + f * (mm_value a - h0_raw)
      | indirect, direct => h0_raw + f * (mm_value b - h0_raw)
      | _, _ => h0_raw
      end in
    let k := sc_max sc_one (dT / threshold) in
    let u := k * sc_sqrt (sc_one / (w_a + w_b)) in
    Ok {| h0_merged := h0_adj; u_merged := u; delta_T := dT |}.

(** Modelled from the spec: the arithmetic of ConcordanceAnalyzer.compute
    (section 4.3, steps 1 and 2) on the four numbers the script passes. *)
Definition concordance (h0 u ref_value ref_sigma : T) : ConcordanceResult :=
  let offset := sc_abs (h0 - ref_value) in
  {| offset_km_s_Mpc := offset;
     significance_sigma := offset / sc_sqrt (sq u + sq ref_sigma) |}.

(** Modelled from the spec: ConcordanceAnalyzer.compute (section 4.3). *)
Definition compute (m : MergedEstimate) (reference : MeasurementModel)
    : ConcordanceResult :=
  concordance (h0_merged m) (u_merged m)
              (mm_value reference) (mm_sigma reference).

End Engine.

Arguments MeasurementModel T : clear implicits.
Arguments MergedEstimate T : clear implicits.
Arguments ConcordanceResult T : clear implicits.

End Spec.

(** ** The contract as an importable engine on binary64 *)

(** [float(n)] for the integers the script writes. *)
Definition float_of_Z (z : Z) : float :=
  match z with
  | Z0 => 0%float
  | Zpos _ => PrimFloat.of_uint63 (Uint63.of_Z z)
  | Zneg _ => PrimFloat.opp (PrimFloat.of_uint63 (Uint63.of_Z (Z.opp z)))
  end.

Definition float_of_pynum (v : pynum) : float :=
  match v with
  | PInt z => float_of_Z z
  | PFloat x => x
  end.

Section ReferenceEngine.

Variables (f threshold : float).

Definition model_of (m : Measurement) : result (Spec.MeasurementModel float) :=
  Spec.construct (name m) (value m) (sigma m)
                 (float_of_pynum (redshift m)) (omega_m m) (method m).

Definition ref_create (args : CreateArgs) : result Measurement :=
  match Spec.construct (arg_name args) (arg_value args) (arg_sigma args)
          (float_of_pynum (arg_redshift args)) (arg_omega_m args)
          (arg_method args) with
  | Ok mm =>
      Ok {| name := Spec.mm_name mm; value := Spec.mm_value mm;
            sigma := Spec.mm_sigma mm; redshift := arg_redshift args;
            omega_m := Spec.mm_omega_m mm;
            method := Spec.method_name (Spec.mm_method mm) |}
  | Err e => Err e
  end.

Definition ref_merge (a b : Measurement) : result (gmap string float) :=
  match model_of a, model_of b with
  | Ok ma, Ok mb =>
      match Spec.merge f threshold ma mb with
      | Ok est =>
          Ok (<["h0_merged" := Spec.h0_merged est]>
              (<["u_merged" := Spec.u_merged est]>
               (<["delta_T" := Spec.delta_T est]> ∅)))
      | Err e => Err e
      end
  | Err e, _ => Err e
  | _, Err e => Err e
  end.

Definition ref_concordance (h0 u ref_value ref_sigma : float)
    : result (gmap string float) :=
  let c := Spec.concordance h0 u ref_value ref_sigma in
  Ok (<["offset_km_s_Mpc" := Spec.offset_km_s_Mpc c]>
      (<["significance_sigma" := Spec.significance_sigma c]> ∅)).

(** The three operations of the contract packaged the way the script
    imports them. *)
Definition reference_engine : Engine := {|
  create_measurement := ref_create;
  merge_with_epistemic_correction := ref_merge;
  calculate_concordance_stats := ref_concordance
|}.

End ReferenceEngine.

(** ** Reading a trace *)

Inductive verdict : Type :=
| Concordant
| MildTension
| SignificantTension.

(** The verdict a printed line announces, if it is one of the three closing
    lines. *)
Definition line_verdict (l : line) : option verdict :=
  match l with
  | [Lit s] =>
      if String.eqb s "🎉 Result: CONCORDANCE ACHIEVED (< 1.5σ)"
      then Some Concordant
      else if String.eqb s "⚠️  Result: MILD TENSION (1.5-3σ)"
      then Some MildTension
      else if String.eqb s "❌ Result: SIGNIFICANT TENSION (> 3σ)"
      then Some SignificantTension
      else None
  | _ => None
  end.

Definition event_verdict (e : event) : option verdict :=
  match e with
  | Printed l => line_verdict l
  | _ => None
  end.

(** The verdicts a run printed, in order. *)
Definition verdicts (t : list event) : list verdict := omap event_verdict t.

Definition is_call (e : event) : bool :=
  match e with
  | Printed _ => false
  | _ => true
  end.

Definition event_create (e : event) : option CreateArgs :=
  match e with
  | CalledCreate args => Some args
  | _ => None
  end.

(** The arguments of the [create_measurement] calls of a run, in order. *)
Definition creations (t : list event) : list CreateArgs := omap event_create t.

Definition event_reference (e : event) : option (float * float) :=
  match e with
  | CalledConcordance _ _ v s => Some (v, s)
  | _ => None
  end.

(** The reference value and sigma of each concordance call of a run. *)
Definition references (t : list event) : list (float * float) :=
  omap event_reference t.

Definition event_gap (e : event) : option float :=
  match e with
  | Printed [Lit s; Fixed 2 g; Lit " km/s/Mpc"] =>
      if String.eqb s "  Gap: " then Some g else None
  | _ => None
  end.

(** The initial gap a run printed. *)
Definition printed_gaps (t : list event) : list float := omap event_gap t.

(** The exact value of a finite binary64 number, as a rational. *)
Definition exact (x : float) : option Q :=
  match Prim2SF x with
  | S754_zero _ => Some 0%Q
  | S754_finite s m e =>
      let v := (inject_Z (Zpos m) * Qpower 2 e)%Q in
      Some (if s then Qopp v else v)
  | _ => None
  end.

(** A finite float lies within [eps] of the rational [q]. *)
Definition within (eps q : Q) (x : float) : bool :=
  match exact x with
  | Some v => Qle_bool (Qabs (v - q)) eps
  | None => false
  end.

(** The dictionary [main] returns. *)
Definition report (h0 u dT pct sig : float) : gmap string float :=
  <["h0_merged" := h0]>
  (<["u_merged" := u]>
   (<["delta_T" := dT]>
    (<["concordance_pct" := pct]>
     (<["significance" := sig]> ∅)))).

(** The engine calls of a run, in order. *)
Definition calls (t : list event) : list event := List.filter is_call t.

(** Everything a returning run of [main] went through. *)
Inductive completed (eng : Engine) (t : list event) (d : gmap string float)
  : Prop :=
| Completed (planck shoes : Measurement) (merged stats : gmap string float)
    (h0 u dT off sig : float)
    (Hplanck : create_measurement eng planck_args = Ok planck)
    (Hshoes : create_measurement eng shoes_args = Ok shoes)
    (Hmerge : merge_with_epistemic_correction eng planck shoes = Ok merged)
    (Hh0 : merged !! "h0_merged" = Some h0)
    (Hu : merged !! "u_merged" = Some u)
    (HdT : merged !! "delta_T" = Some dT)
    (Hstats : calculate_concordance_stats eng h0 u (value planck) (sigma planck)
              = Ok stats)
    (Hoff : stats !! "offset_km_s_Mpc" = Some off)
    (Hsig : stats !! "significance_sigma" = Some sig)
    (Hgap : PrimFloat.eqb (PrimFloat.abs (value shoes - value planck)) 0 = false)
    (Hd : d = report h0 u dT
                ((1 - off / PrimFloat.abs (value shoes - value planck)) * 100)
                sig)
    (Hcalls : calls t =
              [CalledCreate planck_args; CalledCreate shoes_args;
               CalledMerge planck shoes;
               CalledConcordance h0 u (value planck) (sigma planck)])
    (Hcreations : creations t = [planck_args; shoes_args])
    (Hverdicts : verdicts t =
                 [if PrimFloat.ltb sig 1.5 then Concordant
                  else if PrimFloat.ltb sig 3.0 then MildTension
                  else SignificantTension])
    (Hgaps : printed_gaps t = [PrimFloat.abs (value shoes - value planck)]).

(** The dictionary a run returned (empty when it raised). *)
Definition returned_dict (m : M (gmap string float)) : gmap string float :=
  match snd m with
  | Returned d => d
  | Raised _ => ∅
  end.

(** ** Engines the script is run against *)

(** The contract with the bias fraction 1/8 and three inflation thresholds,
    one for each verdict of the seed run. *)
Definition engine_concordant : Engine := reference_engine 0.125 0.125.
Definition engine_mild : Engine := reference_engine 0.125 0.5.
Definition engine_significant : Engine := reference_engine 0.125 2.

(** An engine keeps the value it is given when the object it constructs
    carries that value unchanged (MeasurementModel is a passive record). *)
Definition keeps_value (eng : Engine) : Prop :=
  forall args m, create_measurement eng args = Ok m -> value m = arg_value args.

(** ** Valid measurements over the reals *)

(** The invariant of MeasurementModel (section 3). *)
Definition valid (a : Spec.MeasurementModel R) : Prop :=
  (0 < Spec.mm_sigma a)%R /\ (0 <= Spec.mm_redshift a)%R.

(** The two seed measurements as real-valued models. *)
Definition planck_model : Spec.MeasurementModel R := {|
  Spec.mm_name := "Planck 2018 CMB";
  Spec.mm_value := 67.4%R;
  Spec.mm_sigma := 0.5%R;
  Spec.mm_redshift := 1090%R;
  Spec.mm_omega_m := 0.315%R;
  Spec.mm_method := Spec.indirect
|}.

Definition shoes_model : Spec.MeasurementModel R := {|
  Spec.mm_name := "SH0ES Distance Ladder";
  Spec.mm_value := 73.47%R;
  Spec.mm_sigma := 0.14%R;
  Spec.mm_redshift := 0.01%R;
  Spec.mm_omega_m := 0.300%R;
  Spec.mm_method := Spec.direct
|}.

(** The Planck seed with a lower central value: a wider gap to SH0ES at the
    same sigma. *)
Definition planck_low_model : Spec.MeasurementModel R := {|
  Spec.mm_name := "Planck 2018 CMB";
  Spec.mm_value := 60%R;
  Spec.mm_sigma := 0.5%R;
  Spec.mm_redshift := 1090%R;
  Spec.mm_omega_m := 0.315%R;
  Spec.mm_method := Spec.indirect
|}.

(** ** Engines with one operation replaced *)

(** An engine with one operation replaced. *)
Definition with_create (eng : Engine)
    (f : CreateArgs -> result Measurement) : Engine := {|
  create_measurement := f;
  merge_with_epistemic_correction := merge_with_epistemic_correction eng;
  calculate_concordance_stats := calculate_concordance_stats eng
|}.

Definition with_merge (eng : Engine)
    (f : Measurement -> Measurement -> result (gmap string float)) : Engine := {|
  create_measurement := create_measurement eng;
  merge_with_epistemic_correction := f;
  calculate_concordance_stats := calculate_concordance_stats eng
|}.

Definition with_concordance (eng : Engine)
    (f : float -> float -> float -> float -> result (gmap string float))
    : Engine := {|
  create_measurement := create_measurement eng;
  merge_with_epistemic_correction := merge_with_epistemic_correction eng;
  calculate_concordance_stats := f
|}.

(** The contract with a merge that raises. *)
Definition engine_merge_raises : Engine :=
  with_merge engine_concordant (fun _ _ => Err DegenerateInputError).

(** The contract with a merge result that lacks [delta_T]. *)
Definition engine_no_delta_T : Engine :=
  with_merge engine_concordant (fun a b =>
    match merge_with_epistemic_correction engine_concordant a b with
    | Ok d => Ok (delete "delta_T" d)
    | Err e => Err e
    end).

(** The contract with concordance statistics that lack
    [significance_sigma]. *)
Definition engine_no_significance : Engine :=
  with_concordance engine_concordant (fun h0 u v s =>
    match calculate_concordance_stats engine_concordant h0 u v s with
    | Ok d => Ok (delete "significance_sigma" d)
    | Err e => Err e
    end).


(** The contract with a constructor that gives every measurement a value
    that is not a number. *)
Definition engine_nan_value : Engine :=
  with_create engine_concordant (fun args =>
    match create_measurement engine_concordant args with
    | Ok m =>
        Ok {| name := name m; value := PrimFloat.nan; sigma := sigma m;
              redshift := redshift m; omega_m := omega_m m;
              method := method m |}
    | Err e => Err e
    end).

(** The contract with a concordance step whose significance is not a
    number. *)
Definition engine_nan_significance : Engine :=
  with_concordance engine_concordant (fun h0 u v s =>
    Ok (<["offset_km_s_Mpc" := 1%float]>
        (<["significance_sigma" := PrimFloat.nan]> ∅))).

(** The contract with a concordance step that raises. *)
Definition engine_concordance_raises : Engine :=
  with_concordance engine_concordant (fun _ _ _ _ =>
    Err (OtherError "RuntimeError")).

(** A dictionary lacks a key. *)
Definition missing (d : gmap string float) (k : string) : bool :=
  match d !! k with
  | Some _ => false
  | None => true
  end.



(** * Properties *)

(** ** Running the monad *)

Lemma bind_returned {A B : Type} (m : M A) (k : A -> M B) t b :
  m ≫= k = (t, Returned b) ->
  exists t1 a t2, m = (t1, Returned a) /\ k a = (t2, Returned b) /\ t = t1 ++ t2.
Proof.
  destruct m as [t1 [a|e]]; unfold mbind, M_bind.
  - destruct (k a) as [t2 o] eqn:Hk. intros [= <- ->]. eauto 6.
  - intros [= _ ?].
Qed.

Lemma print_returned l t (u : unit) :
  print l = (t, Returned u) -> t = [Printed l].
Proof. now intros [= <-]. Qed.

Lemma getitem_returned d k t v :
  getitem d k = (t, Returned v) -> t = [] /\ d !! k = Some v.
Proof. unfold getitem. destruct (d !! k); now intros [= <- <-]. Qed.

Lemma truediv_returned x y t q :
  truediv x y = (t, Returned q) ->
  t = [] /\ PrimFloat.eqb y 0 = false /\ q = PrimFloat.div x y.
Proof. unfold truediv. destruct (PrimFloat.eqb y 0); now intros [= <- <-]. Qed.

Lemma call_create_returned eng args t m :
  call_create eng args = (t, Returned m) ->
  t = [CalledCreate args] /\ create_measurement eng args = Ok m.
Proof.
  unfold call_create. destruct (create_measurement eng args); now intros [= <- <-].
Qed.

Lemma call_merge_returned eng a b t r :
  call_merge eng a b = (t, Returned r) ->
  t = [CalledMerge a b] /\ merge_with_epistemic_correction eng a b = Ok r.
Proof.
  unfold call_merge.
  destruct (merge_with_epistemic_correction eng a b); now intros [= <- <-].
Qed.

Lemma call_concordance_returned eng h0 u v s t r :
  call_concordance eng h0 u v s = (t, Returned r) ->
  t = [CalledConcordance h0 u v s] /\
  calculate_concordance_stats eng h0 u v s = Ok r.
Proof.
  unfold call_concordance.
  destruct (calculate_concordance_stats eng h0 u v s); now intros [= <- <-].
Qed.

(** One statement of a run that returned: split the bind, then read what the
    statement did. *)
Ltac run_step H :=
  let t1 := fresh "t" in
  let a := fresh "x" in
  let t2 := fresh "t" in
  let H1 := fresh "E" in
  let Ht := fresh "Ht" in
  apply bind_returned in H as (t1 & a & t2 & H1 & H & Ht);
  cbv beta zeta in H;
  first
    [ apply print_returned in H1
    | apply getitem_returned in H1 as [? H1]
    | apply truediv_returned in H1 as (? & H1 & ?)
    | apply call_create_returned in H1 as [? H1]
    | apply call_merge_returned in H1 as [? H1]
    | apply call_concordance_returned in H1 as [? H1]
    | idtac ];
  subst.

Ltac same_lookups :=
  repeat match goal with
  | H1 : ?o = Some ?x, H2 : ?o = Some ?y |- _ =>
      rewrite H1 in H2; injection H2 as <-
  end.

(** ** A run of [main] that returns *)

Lemma main_returned eng t d : main eng = (t, Returned d) -> completed eng t d.
Proof.
  intros Hm. unfold main in Hm.
  repeat run_step Hm.
  same_lookups.
  injection Hm as <- <-.
  match goal with
  | H : (if ?c then _ else _) = _ |- _ => destruct c eqn:Hlt1
  end.
  - match goal with H : print _ = _ |- _ => apply print_returned in H as -> end.
    econstructor; eauto; try rewrite Hlt1; reflexivity.
  - match goal with H : _ ≫= _ = _ |- _ => run_step H; rename H into Hif end.
    same_lookups.
    destruct (PrimFloat.ltb _ 3) eqn:Hlt3 in Hif;
      apply print_returned in Hif as ->;
      econstructor; eauto; try rewrite Hlt1, Hlt3; reflexivity.
Qed.

(** ** Comparisons of binary64 numbers against the two cut points *)



Lemma Prim2SF_3 : Prim2SF 3%float = S754_finite false 6755399441055744 (-51).
Proof. vm_compute. reflexivity. Qed.

Lemma Prim2SF_1_5 :
  Prim2SF 1.5%float = S754_finite false 6755399441055744 (-52).
Proof. vm_compute. reflexivity. Qed.



(** ** Running [main] forwards *)

Ltac exec :=
  cbn [mbind M_bind mret M_ret call_create call_merge call_concordance
       getitem truediv print emit lift raise fst snd].

Ltac exec_case :=
  match goal with
  | |- context [match ?x with Ok _ => _ | Err _ => _ end] =>
      destruct x eqn:?; exec
  | |- context [match ?x with Some _ => _ | None => _ end] =>
      destruct x eqn:?; exec
  | |- context [if ?c then _ else _] => destruct c eqn:?; exec
  end.

(** Every run, returning or not, makes at most one concordance call, and its
    reference is the object built from [planck_args]. *)
Lemma main_references eng :
  references (fst (main eng)) = [] \/
  exists planck, create_measurement eng planck_args = Ok planck /\
    references (fst (main eng)) = [(value planck, sigma planck)].
Proof.
  unfold main, call_create, call_merge, call_concordance, getitem, truediv, lift.
  exec. repeat exec_case;
    first [ left; reflexivity | right; eexists; split; reflexivity ].
Qed.




(** ** The script *)

(** C3: when the import of the three operations fails, the script prints the
    installation message and ends with exit status 1, and no engine operation
    is called: no measurement is constructed and nothing is computed. *)
Theorem C3_import_failure_exits_1 :
  script (Err ImportError)
  = (map Printed install_message, Raised (SystemExit 1)) /\
  exit_status (snd (script (Err ImportError))) = 1%Z /\
  calls (fst (script (Err ImportError))) = [] /\
  In [Lit "  pip install uha-official>=1.0.0"] install_message.
Proof.
  repeat split; try reflexivity.
  unfold install_message. simpl. tauto.
Qed.

(** C9: when [main] returns, the dictionary has exactly the five keys
    h0_merged, u_merged, delta_T, concordance_pct and significance; the first
    three are the entries of the merge result, concordance_pct is the
    reduction percentage and significance is the significance_sigma of the
    concordance step. *)
Theorem C9_returned_dictionary eng t d :
  main eng = (t, Returned d) ->
  dom d = ({["h0_merged"; "u_merged"; "delta_T"; "concordance_pct";
            "significance"]} : gset string) /\
  exists planck shoes merged stats h0 u offset_after,
    create_measurement eng planck_args = Ok planck /\
    create_measurement eng shoes_args = Ok shoes /\
    merge_with_epistemic_correction eng planck shoes = Ok merged /\
    merged !! "h0_merged" = Some h0 /\
    merged !! "u_merged" = Some u /\
    calculate_concordance_stats eng h0 u (value planck) (sigma planck)
    = Ok stats /\
    stats !! "offset_km_s_Mpc" = Some offset_after /\
    d !! "h0_merged" = merged !! "h0_merged" /\
    d !! "u_merged" = merged !! "u_merged" /\
    d !! "delta_T" = merged !! "delta_T" /\
    d !! "concordance_pct"
    = Some ((1 - offset_after / PrimFloat.abs (value shoes - value planck))
            * 100)%float /\
    d !! "significance" = stats !! "significance_sigma".
Proof.
  intros Hm.
  destruct (main_returned _ _ _ Hm)
    as [planck shoes merged stats h0 u dT off sig].
  subst d. split.
  - unfold report. rewrite !dom_insert_L, dom_empty_L. set_solver.
  - exists planck, shoes, merged, stats, h0, u, off.
    rewrite Hh0, Hu, HdT, Hsig.
    repeat split; try assumption; reflexivity.
Qed.

Lemma line_verdict_lines :
  line_verdict concordance_line = Some Concordant /\
  line_verdict mild_line = Some MildTension /\
  line_verdict significant_line = Some SignificantTension.
Proof. repeat split; reflexivity. Qed.


(** C2: the reduction percentage is computed in [main], from the offset the
    concordance step returned and the absolute difference of the two
    measurement values: (1 - offset_after / offset_before) * 100. *)
Theorem C2_reduction_pct eng t d :
  main eng = (t, Returned d) ->
  exists planck shoes merged stats h0 u offset_after,
    create_measurement eng planck_args = Ok planck /\
    create_measurement eng shoes_args = Ok shoes /\
    merge_with_epistemic_correction eng planck shoes = Ok merged /\
    merged !! "h0_merged" = Some h0 /\
    merged !! "u_merged" = Some u /\
    calculate_concordance_stats eng h0 u (value planck) (sigma planck)
    = Ok stats /\
    stats !! "offset_km_s_Mpc" = Some offset_after /\
    let offset_before := PrimFloat.abs (value shoes - value planck) in
    printed_gaps t = [offset_before] /\
    d !! "concordance_pct"
    = Some ((1 - offset_after / offset_before) * 100)%float.
Proof.
  intros Hm.
  destruct (main_returned _ _ _ Hm)
    as [planck shoes merged stats h0 u dT off sig].
  exists planck, shoes, merged, stats, h0, u, off. subst d.
  repeat split; try assumption; reflexivity.
Qed.

(** C10: the reference of the concordance call is always the value and the
    sigma of the measurement built from the indirect (Planck) arguments. *)
Theorem C10_reference_is_planck eng v s :
  In (v, s) (references (fst (main eng))) ->
  arg_method planck_args = "indirect" /\
  exists planck,
    create_measurement eng planck_args = Ok planck /\
    v = value planck /\ s = sigma planck.
Proof.
  intros Hin. split; [reflexivity|].
  destruct (main_references eng) as [Hnone|(planck & Hp & Href)].
  - rewrite Hnone in Hin. destruct Hin.
  - rewrite Href in Hin. destruct Hin as [[= <- <-]|[]]. eauto.
Qed.

(** The seed run against the contract prints each of the three verdicts for
    a suitable inflation threshold. *)
Example seed_run_verdicts :
  verdicts (fst (main engine_concordant)) = [Concordant] /\
  verdicts (fst (main engine_mild)) = [MildTension] /\
  verdicts (fst (main engine_significant)) = [SignificantTension].
Proof. repeat split; vm_compute; reflexivity. Qed.

(** The seed run against the contract returns. *)
Lemma seed_run_returns :
  main engine_concordant
  = (fst (main engine_concordant),
     Returned (returned_dict (main engine_concordant))).
Proof. vm_compute. reflexivity. Qed.


Lemma C2_witness :
  main engine_concordant
  = (fst (main engine_concordant),
     Returned (returned_dict (main engine_concordant))) /\
  exists planck shoes offset_after,
    create_measurement engine_concordant planck_args = Ok planck /\
    create_measurement engine_concordant shoes_args = Ok shoes /\
    returned_dict (main engine_concordant) !! "concordance_pct"
    = Some ((1 - offset_after / PrimFloat.abs (value shoes - value planck))
            * 100)%float.
Proof.
  split; [exact seed_run_returns|].
  destruct (C2_reduction_pct _ _ _ seed_run_returns)
    as (planck & shoes & merged & stats & h0 & u & off & Hp & Hs & _ & _ & _
        & _ & _ & _ & Hpct).
  exists planck, shoes, off. auto.
Defined.

Lemma C9_witness :
  main engine_concordant
  = (fst (main engine_concordant),
     Returned (returned_dict (main engine_concordant))) /\
  dom (returned_dict (main engine_concordant))
  = ({["h0_merged"; "u_merged"; "delta_T"; "concordance_pct";
       "significance"]} : gset string).
Proof.
  split; [exact seed_run_returns|].
  exact (proj1 (C9_returned_dictionary _ _ _ seed_run_returns)).
Defined.

Lemma C10_witness :
  In (67.4%float, 0.5%float) (references (fst (main engine_concordant))) /\
  exists planck,
    create_measurement engine_concordant planck_args = Ok planck /\
    67.4%float = value planck /\ 0.5%float = sigma planck.
Proof.
  assert (H : In (67.4%float, 0.5%float)
                 (references (fst (main engine_concordant))))
    by (vm_compute; left; reflexivity).
  split; [exact H|].
  exact (proj2 (C10_reference_is_planck engine_concordant _ _ H)).
Defined.

(** ** The seed measurements and the initial gap *)

Lemma reference_engine_keeps_value f threshold :
  keeps_value (reference_engine f threshold).
Proof.
  intros args m. cbn [create_measurement reference_engine].
  unfold ref_create, Spec.construct.
  repeat match goal with
  | |- context [if ?c then _ else _] => destruct c
  | |- context [match Spec.parse_method ?s with _ => _ end] =>
      destruct (Spec.parse_method s)
  end; try discriminate.
  now intros [= <-].
Qed.

(** The binary64 difference of the two seed values is not the binary64
    number nearest to 6.07. *)
Lemma seed_gap_value :
  PrimFloat.abs (arg_value shoes_args - arg_value planck_args)
  = 6.0699999999999932%float /\
  PrimFloat.eqb 6.0699999999999932 6.07 = false /\
  within (1 # 100000000000000) (607 # 100) 6.0699999999999932 = true.
Proof. repeat split; vm_compute; reflexivity. Qed.

(** C4, as stated, fails: on the seed run against an engine that stores the
    values unchanged, the initial gap the script computes and prints differs
    from the float 6.07, and its exact value is not the rational 6.07
    either. *)
Lemma C4_gap_is_not_6_07 :
  keeps_value engine_concordant /\
  exists t d g,
    main engine_concordant = (t, Returned d) /\
    printed_gaps t = [g] /\
    PrimFloat.eqb g 6.07 = false /\
    option_map (fun q => Qeq_bool q (607 # 100)) (exact g) = Some false.
Proof.
  split; [apply reference_engine_keeps_value|].
  eexists _, _, _. split; [exact seed_run_returns|].
  repeat split; vm_compute; reflexivity.
Qed.

(** C4, amended: the run constructs exactly the two seed measurements (67.4,
    0.5, indirect and 73.47, 0.14, direct), in this order, and for an engine
    that stores the values unchanged the initial gap is the binary64 number
    6.0699999999999932, which lies within 1e-14 of 6.07. *)
Theorem C4_seed_measurements_and_gap eng t d :
  keeps_value eng ->
  main eng = (t, Returned d) ->
  creations t = [planck_args; shoes_args] /\
  (arg_value planck_args = 67.4%float /\ arg_sigma planck_args = 0.5%float /\
   arg_method planck_args = "indirect") /\
  (arg_value shoes_args = 73.47%float /\ arg_sigma shoes_args = 0.14%float /\
   arg_method shoes_args = "direct") /\
  exists g,
    printed_gaps t = [g] /\
    g = 6.0699999999999932%float /\
    within (1 # 100000000000000) (607 # 100) g = true.
Proof.
  intros Hkeep Hm.
  destruct (main_returned _ _ _ Hm)
    as [planck shoes merged stats h0 u dT off sig].
  split; [assumption|]. do 2 (split; [repeat split|]).
  exists (PrimFloat.abs (value shoes - value planck)).
  split; [assumption|].
  rewrite (Hkeep _ _ Hplanck), (Hkeep _ _ Hshoes).
  destruct seed_gap_value as (-> & _ & Hw). now split.
Qed.

Lemma C4_witness :
  keeps_value engine_concordant /\
  main engine_concordant
  = (fst (main engine_concordant),
     Returned (returned_dict (main engine_concordant))) /\
  creations (fst (main engine_concordant)) = [planck_args; shoes_args] /\
  exists g,
    printed_gaps (fst (main engine_concordant)) = [g] /\
    g = 6.0699999999999932%float /\
    within (1 # 100000000000000) (607 # 100) g = true.
Proof.
  split; [apply reference_engine_keeps_value|].
  split; [exact seed_run_returns|].
  destruct (C4_seed_measurements_and_gap _ _ _
              (reference_engine_keeps_value _ _) seed_run_returns)
    as (Hc & _ & _ & Hg).
  split; assumption.
Defined.

(** ** The engine contract over the reals *)

Lemma sc_max_R (x y : R) : Spec.sc_max x y = Rmax x y.
Proof.
  unfold Spec.sc_max, Rmax. cbn [sc_ltb R_scalar].
  destruct (Rlt_dec x y), (Rle_dec x y); lra.
Qed.


Lemma merge_valid (f threshold : R) (a b : Spec.MeasurementModel R) :
  valid a -> valid b ->
  exists m,
    Spec.merge f threshold a b = Ok m /\
    Spec.delta_T m
    = (Rabs (Spec.mm_value a - Spec.mm_value b)
       / sqrt (Spec.mm_sigma a * Spec.mm_sigma a
               + Spec.mm_sigma b * Spec.mm_sigma b))%R /\
    Spec.u_merged m
    = (Rmax 1 (Spec.delta_T m / threshold)
       * sqrt (1 / (1 / (Spec.mm_sigma a * Spec.mm_sigma a)
                    + 1 / (Spec.mm_sigma b * Spec.mm_sigma b))))%R.
Proof.
  intros [Ha _] [Hb _]. unfold Spec.merge.
  cbn [sc_eqb sc_zero R_scalar].
  destruct (Req_dec_T (Spec.mm_sigma a) 0) as [E|_]; [lra|].
  destruct (Req_dec_T (Spec.mm_sigma b) 0) as [E|_]; [lra|].
  cbn [orb]. eexists. split; [reflexivity|].
  cbn [Spec.delta_T Spec.u_merged]. rewrite sc_max_R. split; reflexivity.
Qed.

Lemma Rmax_1_ge (x : R) : (1 <= Rmax 1 x)%R.
Proof. apply Rmax_l. Qed.

Lemma inflation_monotone (threshold x y : R) :
  (0 <= x <= y)%R ->
  (Rmax 1 (x / threshold) <= Rmax 1 (y / threshold))%R.
Proof.
  intros [Hx Hxy]. unfold Rdiv.
  destruct (Rtotal_order threshold 0) as [Hneg|[->|Hpos]].
  - pose proof (Rinv_lt_0_compat _ Hneg) as Hi.
    rewrite !Rmax_left by nra. lra.
  - rewrite Rinv_0, !Rmult_0_r. lra.
  - pose proof (Rinv_0_lt_compat _ Hpos) as Hi.
    apply Rle_max_compat_l. nra.
Qed.

Lemma construct_valid name v s z o m (a : Spec.MeasurementModel R) :
  Spec.construct name v s z o m = Ok a -> valid a.
Proof.
  unfold Spec.construct, valid. cbn [sc_ltb sc_leb sc_zero R_scalar].
  destruct (Rlt_dec 0 s), (Rle_dec 0 z); cbn [negb]; try discriminate.
  destruct (Spec.parse_method m); [|discriminate].
  intros [= <-]. now split.
Qed.

(** C5: for valid measurements the merge succeeds and the reconciled
    uncertainty is at least the naive precision-weighted combination
    sqrt(1 / (1/sigma_a^2 + 1/sigma_b^2)), whatever the configuration. *)
Theorem C5_uncertainty_not_below_naive (f threshold : R)
    (a b : Spec.MeasurementModel R) :
  valid a -> valid b ->
  exists m,
    Spec.merge f threshold a b = Ok m /\
    (sqrt (1 / (1 / Spec.mm_sigma a ^ 2 + 1 / Spec.mm_sigma b ^ 2))
     <= Spec.u_merged m)%R.
Proof.
  intros Ha Hb.
  destruct (merge_valid f threshold a b Ha Hb) as (m & Hm & _ & Hu).
  exists m. split; [assumption|]. rewrite Hu.
  replace (Spec.mm_sigma a ^ 2)%R
    with (Spec.mm_sigma a * Spec.mm_sigma a)%R by ring.
  replace (Spec.mm_sigma b ^ 2)%R
    with (Spec.mm_sigma b * Spec.mm_sigma b)%R by ring.
  pose proof (sqrt_pos (1 / (1 / (Spec.mm_sigma a * Spec.mm_sigma a)
                             + 1 / (Spec.mm_sigma b * Spec.mm_sigma b)))) as HS.
  pose proof (Rmax_1_ge (Spec.delta_T m / threshold)). nra.
Qed.

Lemma seed_models_valid : valid planck_model /\ valid shoes_model.
Proof. unfold valid, planck_model, shoes_model; cbn; repeat split; lra. Qed.

Lemma C5_witness :
  valid planck_model /\ valid shoes_model /\
  exists m,
    Spec.merge 0.125%R 2%R planck_model shoes_model = Ok m /\
    (sqrt (1 / (1 / Spec.mm_sigma planck_model ^ 2
                + 1 / Spec.mm_sigma shoes_model ^ 2))
     <= Spec.u_merged m)%R.
Proof.
  destruct seed_models_valid as [Hp Hs]. do 2 (split; [assumption|]).
  exact (C5_uncertainty_not_below_naive 0.125%R 2%R _ _ Hp Hs).
Defined.

(** C6: for valid measurements the epistemic distance does not depend on
    the order of the two arguments. *)
Theorem C6_delta_T_symmetric (f threshold : R)
    (a b : Spec.MeasurementModel R) :
  valid a -> valid b ->
  exists m1 m2,
    Spec.merge f threshold a b = Ok m1 /\
    Spec.merge f threshold b a = Ok m2 /\
    Spec.delta_T m1 = Spec.delta_T m2.
Proof.
  intros Ha Hb.
  destruct (merge_valid f threshold a b Ha Hb) as (m1 & Hm1 & Hd1 & _).
  destruct (merge_valid f threshold b a Hb Ha) as (m2 & Hm2 & Hd2 & _).
  exists m1, m2. repeat split; try assumption.
  rewrite Hd1, Hd2, Rabs_minus_sym. f_equal. f_equal. ring.
Qed.

Lemma C6_witness :
  valid planck_model /\ valid shoes_model /\
  exists m1 m2,
    Spec.merge 0.125%R 2%R planck_model shoes_model = Ok m1 /\
    Spec.merge 0.125%R 2%R shoes_model planck_model = Ok m2 /\
    Spec.delta_T m1 = Spec.delta_T m2.
Proof.
  destruct seed_models_valid as [Hp Hs]. do 2 (split; [assumption|]).
  exact (C6_delta_T_symmetric 0.125%R 2%R _ _ Hp Hs).
Defined.

(** C8: with both sigmas held fixed, a larger absolute difference of the two
    values never gives a smaller reconciled uncertainty, whatever the
    configuration. *)
Theorem C8_uncertainty_monotone_in_gap (f threshold : R)
    (a b a' b' : Spec.MeasurementModel R) :
  valid a -> valid b -> valid a' -> valid b' ->
  Spec.mm_sigma a' = Spec.mm_sigma a ->
  Spec.mm_sigma b' = Spec.mm_sigma b ->
  (Rabs (Spec.mm_value a - Spec.mm_value b)
   <= Rabs (Spec.mm_value a' - Spec.mm_value b'))%R ->
  exists m m',
    Spec.merge f threshold a b = Ok m /\
    Spec.merge f threshold a' b' = Ok m' /\
    (Spec.u_merged m <= Spec.u_merged m')%R.
Proof.
  intros Ha Hb Ha' Hb' Hsa Hsb Hgap.
  destruct (merge_valid f threshold a b Ha Hb) as (m & Hm & Hd & Hu).
  destruct (merge_valid f threshold a' b' Ha' Hb') as (m' & Hm' & Hd' & Hu').
  exists m, m'. repeat split; try assumption.
  rewrite Hu, Hu', Hsa, Hsb.
  apply Rmult_le_compat_r; [apply sqrt_pos|].
  apply inflation_monotone. rewrite Hd, Hd', Hsa, Hsb.
  destruct Ha as [Ha _], Hb as [Hb _].
  assert (HD : (0 < sqrt (Spec.mm_sigma a * Spec.mm_sigma a
                          + Spec.mm_sigma b * Spec.mm_sigma b))%R)
    by (apply sqrt_lt_R0; nra).
  pose proof (Rinv_0_lt_compat _ HD) as Hi.
  pose proof (Rabs_pos (Spec.mm_value a - Spec.mm_value b)).
  unfold Rdiv. split; nra.
Qed.

Lemma seed_gap_widened :
  valid planck_low_model /\
  Spec.mm_sigma planck_low_model = Spec.mm_sigma planck_model /\
  (Rabs (Spec.mm_value planck_model - Spec.mm_value shoes_model)
   <= Rabs (Spec.mm_value planck_low_model - Spec.mm_value shoes_model))%R.
Proof.
  unfold valid, planck_low_model, planck_model, shoes_model; cbn.
  repeat split; try lra.
  rewrite !Rabs_left by lra. lra.
Qed.

Lemma C8_witness :
  valid planck_model /\ valid shoes_model /\ valid planck_low_model /\
  (Rabs (Spec.mm_value planck_model - Spec.mm_value shoes_model)
   <= Rabs (Spec.mm_value planck_low_model - Spec.mm_value shoes_model))%R /\
  exists m m',
    Spec.merge 0.125%R 2%R planck_model shoes_model = Ok m /\
    Spec.merge 0.125%R 2%R planck_low_model shoes_model = Ok m' /\
    (Spec.u_merged m <= Spec.u_merged m')%R.
Proof.
  destruct seed_models_valid as [Hp Hs].
  destruct seed_gap_widened as (Hl & Hsig & Hgap).
  do 4 (split; [assumption|]).
  exact (C8_uncertainty_monotone_in_gap 0.125%R 2%R _ _ _ _
           Hp Hs Hl Hs Hsig eq_refl Hgap).
Defined.

(** ** Construction errors *)



(** * Further properties of the script *)

(** ** How a run of [main] ends *)




(** ** The order of the engine calls *)


(** ** Errors and missing keys *)

(** Run [main] along the facts in the context. *)
Ltac forward :=
  unfold main, call_create, call_merge, call_concordance, getitem, truediv,
    lift;
  repeat (exec;
          match goal with
          | H : ?x = _ |- context [?x] => rewrite H
          end);
  exec.

(** X4: an error of the merge is the outcome of [main]; the concordance
    step is not called and no verdict is printed. *)
Theorem X4_merge_error_propagates eng planck shoes e :
  create_measurement eng planck_args = Ok planck ->
  create_measurement eng shoes_args = Ok shoes ->
  merge_with_epistemic_correction eng planck shoes = Err e ->
  snd (main eng) = Raised e /\
  references (fst (main eng)) = [] /\
  verdicts (fst (main eng)) = [].
Proof. intros Hp Hs Hm. forward. repeat split; reflexivity. Qed.

Lemma X4_witness :
  snd (main engine_merge_raises) = Raised DegenerateInputError /\
  references (fst (main engine_merge_raises)) = [] /\
  verdicts (fst (main engine_merge_raises)) = [].
Proof.
  destruct (create_measurement engine_merge_raises planck_args)
    as [planck|] eqn:Hp; [|vm_compute in Hp; discriminate Hp].
  destruct (create_measurement engine_merge_raises shoes_args)
    as [shoes|] eqn:Hs; [|vm_compute in Hs; discriminate Hs].
  exact (X4_merge_error_propagates engine_merge_raises planck shoes
           DegenerateInputError Hp Hs eq_refl).
Defined.

(** X5: an error of the concordance step is the outcome of [main]; no
    verdict is printed. *)
Theorem X5_concordance_error_propagates eng planck shoes merged h0 u dT e :
  create_measurement eng planck_args = Ok planck ->
  create_measurement eng shoes_args = Ok shoes ->
  merge_with_epistemic_correction eng planck shoes = Ok merged ->
  merged !! "h0_merged" = Some h0 ->
  merged !! "u_merged" = Some u ->
  merged !! "delta_T" = Some dT ->
  calculate_concordance_stats eng h0 u (value planck) (sigma planck) = Err e ->
  snd (main eng) = Raised e /\ verdicts (fst (main eng)) = [].
Proof.
  intros Hp Hs Hm Hh0 Hu HdT Hc. forward. split; reflexivity.
Qed.

(** X6: when the merge result lacks one of h0_merged, u_merged and delta_T,
    [main] raises [KeyError] for the first of them that is missing, in this
    order, and the concordance step is not called. *)
Theorem X6_missing_merge_key eng planck shoes merged k :
  create_measurement eng planck_args = Ok planck ->
  create_measurement eng shoes_args = Ok shoes ->
  merge_with_epistemic_correction eng planck shoes = Ok merged ->
  List.find (missing merged) ["h0_merged"; "u_merged"; "delta_T"] = Some k ->
  snd (main eng) = Raised (KeyError k) /\
  references (fst (main eng)) = [].
Proof.
  intros Hp Hs Hm. unfold missing. cbn [find].
  destruct (merged !! "h0_merged") as [h0|] eqn:Hh0;
    [destruct (merged !! "u_merged") as [u|] eqn:Hu;
     [destruct (merged !! "delta_T") as [dT|] eqn:HdT|]|];
    intros [= <-]; forward; split; reflexivity.
Qed.

(** X7: when the concordance statistics lack offset_km_s_Mpc or
    significance_sigma, [main] raises [KeyError] for the first of them that
    is missing, in this order, and prints no verdict. *)
Theorem X7_missing_stats_key eng planck shoes merged stats h0 u dT k :
  create_measurement eng planck_args = Ok planck ->
  create_measurement eng shoes_args = Ok shoes ->
  merge_with_epistemic_correction eng planck shoes = Ok merged ->
  merged !! "h0_merged" = Some h0 ->
  merged !! "u_merged" = Some u ->
  merged !! "delta_T" = Some dT ->
  calculate_concordance_stats eng h0 u (value planck) (sigma planck)
  = Ok stats ->
  List.find (missing stats) ["offset_km_s_Mpc"; "significance_sigma"]
  = Some k ->
  snd (main eng) = Raised (KeyError k) /\ verdicts (fst (main eng)) = [].
Proof.
  intros Hp Hs Hm Hh0 Hu HdT Hc. unfold missing. cbn [find].
  destruct (stats !! "offset_km_s_Mpc") as [off|] eqn:Hoff;
    [destruct (stats !! "significance_sigma") as [sig|] eqn:Hsig|];
    intros [= <-]; forward; split; reflexivity.
Qed.


Lemma X5_witness :
  snd (main engine_concordance_raises) = Raised (OtherError "RuntimeError") /\
  verdicts (fst (main engine_concordance_raises)) = [].
Proof.
  eapply X5_concordance_error_propagates; [vm_compute; reflexivity ..].
Defined.

Lemma X6_witness :
  snd (main engine_no_delta_T) = Raised (KeyError "delta_T") /\
  references (fst (main engine_no_delta_T)) = [].
Proof.
  eapply X6_missing_merge_key; [vm_compute; reflexivity ..].
Defined.

Lemma X7_witness :
  snd (main engine_no_significance) = Raised (KeyError "significance_sigma") /\
  verdicts (fst (main engine_no_significance)) = [].
Proof.
  eapply X7_missing_stats_key; [vm_compute; reflexivity ..].
Defined.


(** ** The verdict *)

Lemma SFcompare_refl (x : spec_float) :
  x <> S754_nan -> SFcompare x x = Some Eq.
Proof.
  destruct x as [s|s| |s m e]; intros Hx; cbn [SFcompare].
  - reflexivity.
  - now destruct s.
  - now destruct Hx.
  - rewrite Z.compare_refl, Pos.compare_cont_refl. now destruct s.
Qed.

Lemma spec_float_nan_dec (x : spec_float) : {x = S754_nan} + {x <> S754_nan}.
Proof. destruct x; (now left) || (now right). Qed.

(** A number that differs from itself (a NaN) is below nothing. *)
Lemma nan_not_ltb (s c : float) :
  PrimFloat.eqb s s = false -> PrimFloat.ltb s c = false.
Proof.
  rewrite FloatAxioms.eqb_spec, ltb_spec.
  generalize (Prim2SF c) as y. generalize (Prim2SF s) as x.
  intros x y. unfold SFeqb.
  destruct (spec_float_nan_dec x) as [->|Hx].
  - reflexivity.
  - now rewrite (SFcompare_refl x Hx).
Qed.

Lemma SFltb_1_5_3 (x : spec_float) :
  SFltb x (S754_finite false 6755399441055744 (-52)) = true ->
  SFltb x (S754_finite false 6755399441055744 (-51)) = true.
Proof.
  unfold SFltb.
  destruct x as [sx|sx| |sx mx ex]; cbn [SFcompare].
  - reflexivity.
  - now destruct sx.
  - discriminate.
  - destruct sx; [reflexivity|].
    destruct (Z.compare_spec ex (-52)) as [->|Hlt|Hgt].
    + reflexivity.
    + destruct (Z.compare_spec ex (-51)) as [->|Hlt'|Hgt'];
        [lia|reflexivity|lia].
    + discriminate.
Qed.

Lemma lt_1_5_lt_3 (s : float) :
  PrimFloat.ltb s 1.5 = true -> PrimFloat.ltb s 3 = true.
Proof. rewrite !ltb_spec, Prim2SF_3, Prim2SF_1_5. apply SFltb_1_5_3. Qed.

(** X9: in a returning run the verdict printed is determined by the
    returned significance alone: concordance exactly when it is below 1.5,
    mild tension exactly when it is not below 1.5 but below 3.0, significant
    tension exactly when it is not below 3.0; a significance that is not a
    number is reported as significant tension. *)
Theorem X9_verdict_characterised eng t d sig :
  main eng = (t, Returned d) ->
  d !! "significance" = Some sig ->
  (verdicts t = [Concordant] <-> PrimFloat.ltb sig 1.5 = true) /\
  (verdicts t = [MildTension]
   <-> PrimFloat.ltb sig 1.5 = false /\ PrimFloat.ltb sig 3 = true) /\
  (verdicts t = [SignificantTension] <-> PrimFloat.ltb sig 3 = false) /\
  (PrimFloat.eqb sig sig = false -> verdicts t = [SignificantTension]).
Proof.
  intros Hm Hd.
  destruct (main_returned _ _ _ Hm)
    as [planck shoes merged stats h0 u dT off sig'].
  subst d. change (Some sig' = Some sig) in Hd. injection Hd as ->.
  rewrite Hverdicts.
  pose proof (lt_1_5_lt_3 sig) as Htrans.
  pose proof (nan_not_ltb sig 1.5) as Hnan1.
  pose proof (nan_not_ltb sig 3) as Hnan3.
  destruct (PrimFloat.ltb sig 1.5), (PrimFloat.ltb sig 3);
    repeat split; intros; try discriminate; try reflexivity;
    try (specialize (Htrans eq_refl); discriminate);
    try (destruct H; discriminate);
    try (specialize (Hnan1 ltac:(assumption)); discriminate);
    try (specialize (Hnan3 ltac:(assumption)); discriminate).
Qed.

Lemma X9_witness :
  main engine_nan_significance
  = (fst (main engine_nan_significance),
     Returned (returned_dict (main engine_nan_significance))) /\
  returned_dict (main engine_nan_significance) !! "significance"
  = Some PrimFloat.nan /\
  PrimFloat.eqb PrimFloat.nan PrimFloat.nan = false /\
  verdicts (fst (main engine_nan_significance)) = [SignificantTension].
Proof.
  assert (Hm : main engine_nan_significance
               = (fst (main engine_nan_significance),
                  Returned (returned_dict (main engine_nan_significance))))
    by (vm_compute; reflexivity).
  assert (Hd : returned_dict (main engine_nan_significance) !! "significance"
               = Some PrimFloat.nan) by (vm_compute; reflexivity).
  assert (Hn : PrimFloat.eqb PrimFloat.nan PrimFloat.nan = false)
    by (vm_compute; reflexivity).
  do 3 (split; [assumption|]).
  exact (proj2 (proj2 (proj2 (X9_verdict_characterised _ _ _ _ Hm Hd))) Hn).
Defined.

(** ** The script around [main] *)

(** X10: when the import succeeds the script does what [main] does and
    nothing more: it produces the events of [main], raises exactly what
    [main] raises, and ends normally exactly when [main] returns. *)
Theorem X10_script_runs_main eng :
  fst (script (Ok eng)) = fst (main eng) /\
  (forall e, snd (script (Ok eng)) = Raised e <-> snd (main eng) = Raised e) /\
  (snd (script (Ok eng)) = Returned tt <-> exists d, snd (main eng) = Returned d).
Proof.
  unfold script. destruct (main eng) as [t [d|e]]; cbn.
  - rewrite app_nil_r. repeat split; try discriminate; eauto.
  - repeat split; try discriminate; try (intros [= <-]; reflexivity).
    intros [d Hd]. discriminate Hd.
Qed.

(** ** The initial gap and the reduction percentage *)

Lemma is_nan_spec (x : float) :
  PrimFloat.is_nan x = true <-> Prim2SF x = S754_nan.
Proof.
  unfold PrimFloat.is_nan. rewrite FloatAxioms.eqb_spec. unfold SFeqb.
  destruct (spec_float_nan_dec (Prim2SF x)) as [E|E].
  - rewrite E. now split.
  - rewrite (SFcompare_refl _ E). split; [discriminate|contradiction].
Qed.

Lemma sub_nan (x y : float) :
  PrimFloat.is_nan x = true \/ PrimFloat.is_nan y = true ->
  PrimFloat.is_nan (x - y) = true.
Proof.
  rewrite !is_nan_spec, sub_spec. unfold SF64sub.
  intros [->| ->]; [reflexivity|]. now destruct (Prim2SF x).
Qed.

Lemma abs_nan (x : float) :
  PrimFloat.is_nan x = true -> PrimFloat.is_nan (PrimFloat.abs x) = true.
Proof. rewrite !is_nan_spec, abs_spec. now intros ->. Qed.

Lemma div_nan_r (x y : float) :
  PrimFloat.is_nan y = true -> PrimFloat.is_nan (x / y) = true.
Proof.
  rewrite !is_nan_spec, div_spec. unfold SF64div.
  intros ->. now destruct (Prim2SF x).
Qed.

Lemma mul_nan_l (x y : float) :
  PrimFloat.is_nan x = true -> PrimFloat.is_nan (x * y) = true.
Proof. rewrite !is_nan_spec, mul_spec. unfold SF64mul. now intros ->. Qed.




(** X12: a measurement value that is not a number raises nothing in
    [main]: when the run returns, the reduction percentage it returns is not
    a number either. *)
Theorem X12_nan_value_gives_nan_pct eng t d planck shoes :
  main eng = (t, Returned d) ->
  create_measurement eng planck_args = Ok planck ->
  create_measurement eng shoes_args = Ok shoes ->
  PrimFloat.is_nan (value planck) = true \/
  PrimFloat.is_nan (value shoes) = true ->
  exists pct,
    d !! "concordance_pct" = Some pct /\ PrimFloat.is_nan pct = true.
Proof.
  intros Hm Hp Hs Hnan.
  destruct (main_returned _ _ _ Hm)
    as [planck' shoes' merged stats h0 u dT off sig].
  rewrite Hp in Hplanck. rewrite Hs in Hshoes.
  injection Hplanck as <-. injection Hshoes as <-. subst d.
  eexists. split; [reflexivity|].
  apply mul_nan_l, sub_nan. right. apply div_nan_r, abs_nan, sub_nan.
  tauto.
Qed.

Lemma X12_witness :
  exists pct,
    returned_dict (main engine_nan_value) !! "concordance_pct" = Some pct /\
    PrimFloat.is_nan pct = true.
Proof.
  eapply (X12_nan_value_gives_nan_pct engine_nan_value
            (fst (main engine_nan_value)));
    [vm_compute; reflexivity | vm_compute; reflexivity
    | vm_compute; reflexivity | left; vm_compute; reflexivity].
Defined.

(** X13: a verdict is printed exactly in the runs that return, and never
    more than one: a run that raises prints none. *)
Theorem X13_verdict_iff_returns eng :
  (exists d v,
     snd (main eng) = Returned d /\ verdicts (fst (main eng)) = [v]) \/
  (exists e,
     snd (main eng) = Raised e /\ verdicts (fst (main eng)) = []).
Proof.
  unfold main, call_create, call_merge, call_concordance, getitem, truediv, lift.
  exec. repeat exec_case;
    first [ left; do 2 eexists; split; reflexivity
          | right; eexists; split; reflexivity ].
Qed.
